(** * BranchBQOperator: branching on the first row of a BigQuery result

    A shallow embedding of [bq_branch/plugins/bq_branch.py].  The operator
    runs one query through a BigQuery hook, reads the first row, picks
    [pass_task] or [fail_task] and asks the scheduler to skip every other
    downstream task.

    The [apply_defaults] decorator, the base operator constructor, the hook
    and the skip operation are Airflow's and are taken as parameters
    ([Host]); each of them may raise.  Log lines and calls of [skip] are
    recorded, in order, in the trace of events a run emits. *)

From Stdlib Require Import List String ZArith Bool.
From Stdlib Require Import Floats.SpecFloat.
From Stdlib Require Import Permutation Lia.
Import ListNotations.
Local Open Scope string_scope.
Set Warnings "-register-all".

(** ** Python values and truth testing *)

(** The values a row can hold.  The BigQuery cursor casts a cell to [None],
    a [bool], an [int], a [float] or a [str]; lists and dictionaries are
    kept because the operator's docstring names them in its truthiness
    rule. *)
Inductive PyVal : Type :=
| PNone
| PBool (b : bool)
| PInt (z : Z)
| PFloat (f : spec_float)
| PStr (s : string)
| PList (l : list PyVal)
| PDict (d : list (PyVal * PyVal)).

(** [bool(v)].  The docstring of the operator: [False], [0], the empty
    string, the empty list and the empty dictionary evaluate as false.
    [None] and both float zeros are false as well; a NaN is true. *)
Definition py_bool (v : PyVal) : bool :=
  match v with
  | PNone => false
  | PBool b => b
  | PInt z => negb (Z.eqb z 0)
  | PFloat (S754_zero _) => false
  | PFloat _ => true
  | PStr EmptyString => false
  | PStr (String _ _) => true
  | PList [] => false
  | PList (_ :: _) => true
  | PDict [] => false
  | PDict (_ :: _) => true
  end.

(** Truth value of what [get_first] returned: [None] and the empty row are
    false, a row with at least one column is true. *)
Definition records_bool (records : option (list PyVal)) : bool :=
  match records with
  | None => false
  | Some [] => false
  | Some (_ :: _) => true
  end.

(** The values [for r in records] runs over.  The loop is reached only
    when [records] is truthy, that is, a row with at least one column. *)
Definition row_of (records : option (list PyVal)) : list PyVal :=
  match records with
  | Some row => row
  | None => []
  end.

(** ** Exceptions and the effect monad *)

Inductive exn : Type :=
| TypeError (msg : string)
| KeyError (key : string)
| HostException (name : string) (msg : string).

Inductive result (A : Type) : Type :=
| Ok (a : A)
| Raise (e : exn).
Arguments Ok {A} a.
Arguments Raise {A} e.

(** ** The scheduler's objects *)

(** A task of the DAG: its identifier and the tasks that depend on it. *)
Inductive Task : Type :=
  mkTask { task_id : string; downstream_list : list Task }.

Record DagRun : Type := mkDagRun { run_id : string }.

Record TaskInstance : Type := mkTaskInstance { execution_date : Z }.

(** The context the scheduler passes to [execute]: the three entries that
    [execute] reads, all present. *)
Record Context : Type := mkContext {
  task : Task;
  dag_run : DagRun;
  ti : TaskInstance
}.

(** The [context] argument as the dictionary it is: any of the three
    entries may be missing. *)
Record ContextDict : Type := mkContextDict {
  entry_task : option Task;
  entry_dag_run : option DagRun;
  entry_ti : option TaskInstance
}.

Definition to_dict (c : Context) : ContextDict :=
  {| entry_task := Some (task c);
     entry_dag_run := Some (dag_run c);
     entry_ti := Some (ti c) |}.

(** What [self.log.info] is called with, one constructor per call site. *)
Inductive LogRecord : Type :=
| ExecutingSQLCheck (sql : option string)
| RecordLine (records : option (list PyVal))
| QueryReturnedNone
| TestFailed (sql : option string) (records : option (list PyVal))
| FollowingBranch (branch : option string)
| DownstreamTaskIds (tasks : list Task).

(** What a run does to the outside: log lines and calls of
    [SkipMixin.skip]. *)
Inductive Event : Type :=
| LogInfo (r : LogRecord)
| Skip (run : DagRun) (date : Z) (tasks : list Task).

(** A computation emits events and then returns or raises.  The events
    emitted before an exception are kept. *)
Definition M (A : Type) : Type := (list Event * result A)%type.

Definition ret {A : Type} (a : A) : M A := ([], Ok a).

Definition bind {A B : Type} (m : M A) (k : A -> M B) : M B :=
  match m with
  | (tr, Ok a) => let (tr', r) := k a in ((tr ++ tr')%list, r)
  | (tr, Raise e) => (tr, Raise e)
  end.

Definition emit (e : Event) : M unit := ([e], Ok tt).

Definition lift {A : Type} (r : result A) : M A := ([], r).

Definition trace {A : Type} (m : M A) : list Event := fst m.

Definition outcome {A : Type} (m : M A) : result A := snd m.

Declare Scope py_scope.
Delimit Scope py_scope with py.
Notation "x <- m ; k" := (bind m (fun x => k))
  (at level 61, m at next level, right associativity) : py_scope.
Notation "m ;; k" := (bind m (fun _ => k))
  (at level 61, right associativity) : py_scope.
Local Open Scope py_scope.

(** ** Airflow's side *)

Record BaseOperator : Type := mkBaseOperator {
  base_args : list PyVal;
  base_kwargs : list (string * PyVal)
}.

Record BigQueryHook : Type := mkBigQueryHook {
  hook_bigquery_conn_id : string;
  hook_use_legacy_sql : bool;
  hook_delegate_to : option string
}.

(** The arguments of one call of the constructor, by parameter of the
    signature of line 85: [None] stands for an argument the caller left
    out.  [positional] counts the arguments passed by position ([self]
    apart), [arg_args] holds those beyond the six named parameters and
    [arg_kwargs] the keywords the signature does not name. *)
Record InitCall : Type := mkInitCall {
  positional : nat;
  arg_sql : option (option string);
  arg_pass_task : option (option string);
  arg_fail_task : option (option string);
  arg_use_legacy_sql : option bool;
  arg_bigquery_conn_id : option string;
  arg_delegate_to : option (option string);
  arg_args : list PyVal;
  arg_kwargs : list (string * PyVal)
}.

(** The collaborators whose code is Airflow's.  [apply_defaults] is the
    wrapper the decorator of line 84 puts around [__init__]: it raises, or
    it hands the body the arguments to run with (it may fill in arguments
    the caller left out and add keywords).  [base_init] is the constructor
    of the base class.  [get_first] returns the first row, [None] when
    there is none, or raises.  [skip] is [SkipMixin.skip]. *)
Record Host : Type := mkHost {
  apply_defaults : InitCall -> result InitCall;
  base_init : list PyVal -> list (string * PyVal) -> result BaseOperator;
  get_first : BigQueryHook -> option string -> result (option (list PyVal));
  skip : DagRun -> Z -> list Task -> result unit
}.

(** ** The operator *)

Record BranchBQOperator : Type := mkBranchBQOperator {
  base : BaseOperator;
  bigquery_conn_id : string;
  sql : option string;
  pass_task : option string;
  fail_task : option string;
  delegate_to : option string;
  use_legacy_sql : bool
}.

(** The body of [BranchBQOperator.__init__] (lines 95-101), with its
    parameters bound: the base constructor runs first, then the six
    arguments are stored as received. *)
Definition init_body (host : Host)
    (sql pass_task fail_task : option string)
    (use_legacy_sql : bool) (bigquery_conn_id : string)
    (delegate_to : option string)
    (args : list PyVal) (kwargs : list (string * PyVal))
  : result BranchBQOperator :=
  match base_init host args kwargs with
  | Raise e => Raise e
  | Ok b =>
      Ok {| base := b;
            bigquery_conn_id := bigquery_conn_id;
            sql := sql;
            pass_task := pass_task;
            fail_task := fail_task;
            delegate_to := delegate_to;
            use_legacy_sql := use_legacy_sql |}
  end.

(** The defaults of the signature. *)
Definition default_use_legacy_sql : bool := true.
Definition default_bigquery_conn_id : string := "bigquery_default".

(** An argument that was left out takes the default of the signature. *)
Definition with_default {A : Type} (default : A) (given : option A) : A :=
  match given with
  | Some v => v
  | None => default
  end.

(** [BranchBQOperator.__init__] as it is called (lines 84-101): the wrapper
    of [@apply_defaults] sees the call first; the body then runs with the
    arguments the wrapper hands over and the defaults of the signature for
    those still left out. *)
Definition __init__ (host : Host) (call : InitCall)
  : result BranchBQOperator :=
  match apply_defaults host call with
  | Raise e => Raise e
  | Ok call' =>
      init_body host
        (with_default None (arg_sql call'))
        (with_default None (arg_pass_task call'))
        (with_default None (arg_fail_task call'))
        (with_default default_use_legacy_sql (arg_use_legacy_sql call'))
        (with_default default_bigquery_conn_id (arg_bigquery_conn_id call'))
        (with_default None (arg_delegate_to call'))
        (arg_args call') (arg_kwargs call')
  end.

(** [t.task_id != branch_to_follow]: a task identifier is a string, the
    branch is a string or [None]. *)
Definition task_id_ne (tid : string) (branch : option string) : bool :=
  match branch with
  | Some b => negb (String.eqb tid b)
  | None => true
  end.

(** [[t for t in downstream_tasks if t.task_id != branch_to_follow]] *)
Definition skip_tasks (downstream_tasks : list Task)
    (branch_to_follow : option string) : list Task :=
  filter (fun t => task_id_ne (task_id t) branch_to_follow) downstream_tasks.

Definition log_info (r : LogRecord) : M unit := emit (LogInfo r).

(** [context[key]]: subscripting [None] raises [TypeError], a missing key
    raises [KeyError]. *)
Definition subscript {A : Type} (context : option ContextDict)
    (key : string) (entry : ContextDict -> option A) : M A :=
  match context with
  | None => lift (Raise (TypeError "'NoneType' object is not subscriptable"))
  | Some d =>
      match entry d with
      | Some v => ret v
      | None => lift (Raise (KeyError key))
      end
  end.

(** [BranchBQOperator.execute].  The call of [self.skip] is recorded when
    it is made, and what it raises is raised by [execute]. *)
Definition execute (host : Host) (self : BranchBQOperator)
    (context : option ContextDict) : M unit :=
  log_info (ExecutingSQLCheck (sql self)) ;;
  let hook := mkBigQueryHook (bigquery_conn_id self) (use_legacy_sql self)
                             (delegate_to self) in
  records <- lift (get_first host hook (sql self)) ;
  log_info (RecordLine records) ;;
  let branch_to_follow := pass_task self in
  branch_to_follow <-
    (if negb (records_bool records) then
       log_info QueryReturnedNone ;;
       ret (fail_task self)
     else if negb (forallb py_bool (row_of records)) then
       log_info (TestFailed (sql self) records) ;;
       ret (fail_task self)
     else ret branch_to_follow) ;
  t <- subscript context "task" entry_task ;
  let downstream_tasks := downstream_list t in
  log_info (FollowingBranch branch_to_follow) ;;
  log_info (DownstreamTaskIds downstream_tasks) ;;
  let skip_tasks := skip_tasks downstream_tasks branch_to_follow in
  match downstream_tasks with
  | _ :: _ =>
      run <- subscript context "dag_run" entry_dag_run ;
      i <- subscript context "ti" entry_ti ;
      emit (Skip run (execution_date i) skip_tasks) ;;
      lift (skip host run (execution_date i) skip_tasks)
  | [] => ret tt
  end.

(** ** Reading a run *)

(** The result of lines 105-109: the hook is built from the operator's
    connection settings and asked for the first row of [self.sql]. *)
Definition query_result (host : Host) (self : BranchBQOperator)
  : result (option (list PyVal)) :=
  get_first host
    (mkBigQueryHook (bigquery_conn_id self) (use_legacy_sql self)
                    (delegate_to self))
    (sql self).

(** The branches a trace reports as followed, in order: the argument of
    every ['Following branch %s'] line. *)
Definition followed (tr : list Event) : list (option string) :=
  flat_map (fun e => match e with
                     | LogInfo (FollowingBranch b) => [b]
                     | _ => []
                     end) tr.

(** The calls of [self.skip] in a trace, in order, with their arguments. *)
Definition skip_calls (tr : list Event) : list (DagRun * Z * list Task) :=
  flat_map (fun e => match e with
                     | Skip r d ts => [(r, d, ts)]
                     | LogInfo _ => []
                     end) tr.

(** The contract the specification gives for the branch evaluator:
    an absent or empty row fails, otherwise the row passes exactly when all
    its values are truthy.  [execute] is compared with it below. *)
Definition decide (row : option (list PyVal))
    (passTaskId failTaskId : option string) : option string :=
  match row with
  | None => failTaskId
  | Some [] => failTaskId
  | Some (v :: vs) =>
      if forallb py_bool (v :: vs) then passTaskId else failTaskId
  end.

(** ** Sample hosts, operators and contexts *)

Module Sample.

(** A wrapper that behaves as Airflow's does for a call outside any DAG
    and without [default_args]: a positional argument is refused, nothing
    is filled in, and the [params] keyword is set. *)
Definition keywords_only (call : InitCall) : result InitCall :=
  match positional call with
  | S _ =>
      Raise (HostException "AirflowException"
               "Use keyword arguments when initializing operators")
  | O =>
      Ok {| positional := 0;
            arg_sql := arg_sql call;
            arg_pass_task := arg_pass_task call;
            arg_fail_task := arg_fail_task call;
            arg_use_legacy_sql := arg_use_legacy_sql call;
            arg_bigquery_conn_id := arg_bigquery_conn_id call;
            arg_delegate_to := arg_delegate_to call;
            arg_args := arg_args call;
            arg_kwargs := (arg_kwargs call ++ [("params", PDict [])])%list |}
  end.

(** A wrapper for a DAG whose [default_args] name a [pass_task]: it is
    filled in when the caller left it out. *)
Definition fills_pass_task (p : string) (call : InitCall)
  : result InitCall :=
  match keywords_only call with
  | Raise e => Raise e
  | Ok call' =>
      Ok {| positional := positional call';
            arg_sql := arg_sql call';
            arg_pass_task :=
              match arg_pass_task call' with
              | None => Some (Some p)
              | Some given => Some given
              end;
            arg_fail_task := arg_fail_task call';
            arg_use_legacy_sql := arg_use_legacy_sql call';
            arg_bigquery_conn_id := arg_bigquery_conn_id call';
            arg_delegate_to := arg_delegate_to call';
            arg_args := arg_args call';
            arg_kwargs := arg_kwargs call' |}
  end.

(** A host whose base constructor accepts everything, whose query returns
    [r] and whose [skip] returns. *)
Definition host (r : option (list PyVal)) : Host :=
  {| apply_defaults := keywords_only;
     base_init := fun a k => Ok (mkBaseOperator a k);
     get_first := fun _ _ => Ok r;
     skip := fun _ _ _ => Ok tt |}.

(** A host whose query fails. *)
Definition broken_host : Host :=
  {| apply_defaults := keywords_only;
     base_init := fun a k => Ok (mkBaseOperator a k);
     get_first := fun _ _ => Raise (HostException "HttpError" "503");
     skip := fun _ _ _ => Ok tt |}.

(** A host whose query returns [r] and whose [skip] fails. *)
Definition host_failing_skip (r : option (list PyVal)) : Host :=
  {| apply_defaults := keywords_only;
     base_init := fun a k => Ok (mkBaseOperator a k);
     get_first := fun _ _ => Ok r;
     skip := fun _ _ _ =>
       Raise (HostException "OperationalError" "database is locked") |}.

(** The call [BranchBQOperator(task_id='check', sql=q, pass_task=p,
    fail_task=f)], where [p] and [f] may be left out. *)
Definition call (q : string) (p f : option (option string)) : InitCall :=
  {| positional := 0;
     arg_sql := Some (Some q);
     arg_pass_task := p;
     arg_fail_task := f;
     arg_use_legacy_sql := None;
     arg_bigquery_conn_id := None;
     arg_delegate_to := None;
     arg_args := [];
     arg_kwargs := [("task_id", PStr "check")] |}.

Definition op (p f : option string) : BranchBQOperator :=
  {| base := mkBaseOperator [] [("task_id", PStr "check")];
     bigquery_conn_id := default_bigquery_conn_id;
     sql := Some "select count(*) from my_dataset.my_table";
     pass_task := p;
     fail_task := f;
     delegate_to := None;
     use_legacy_sql := false |}.

Definition leaf (id : string) : Task := mkTask id [].

Definition ctx (ds : list Task) : Context :=
  {| task := mkTask "check" ds;
     dag_run := mkDagRun "scheduled__2019-01-01";
     ti := mkTaskInstance 1546300800 |}.

Definition abc : list Task := [leaf "A"; leaf "B"; leaf "C"].

End Sample.

(** ** Truth testing: boolean and propositional forms *)

Lemma forallb_py_bool_Forall (row : list PyVal) :
  forallb py_bool row = true <-> Forall (fun v => py_bool v = true) row.
Proof.
  induction row as [|v row IH]; simpl.
  - split; [constructor | reflexivity].
  - rewrite andb_true_iff, IH. split.
    + intros [Hv Hrow]. constructor; assumption.
    + intros H. inversion H; subst. split; assumption.
Qed.

Lemma forallb_py_bool_Exists (row : list PyVal) :
  forallb py_bool row = false <-> Exists (fun v => py_bool v = false) row.
Proof.
  induction row as [|v row IH]; simpl.
  - split; [discriminate | intros H; inversion H].
  - rewrite andb_false_iff, IH. split.
    + intros [Hv | Hrow]; [left | right]; assumption.
    + intros H. inversion H; subst; [left | right]; assumption.
Qed.

Lemma forallb_py_bool_ext (r1 r2 : list PyVal) :
  Forall2 (fun a b => py_bool a = py_bool b) r1 r2 ->
  forallb py_bool r1 = forallb py_bool r2.
Proof.
  induction 1 as [|a b r1 r2 Hab _ IH]; simpl.
  - reflexivity.
  - rewrite Hab, IH. reflexivity.
Qed.

(** ** The contract [decide], case by case *)

Lemma decide_all_truthy (row : list PyVal) (p f : option string) :
  row <> [] -> Forall (fun v => py_bool v = true) row ->
  decide (Some row) p f = p.
Proof.
  intros Hne Hall. destruct row as [|v vs]; [contradiction|].
  unfold decide. apply forallb_py_bool_Forall in Hall.
  rewrite Hall. reflexivity.
Qed.

Lemma decide_some_falsy (row : list PyVal) (p f : option string) :
  Exists (fun v => py_bool v = false) row ->
  decide (Some row) p f = f.
Proof.
  intros Hex. destruct row as [|v vs]; [reflexivity|].
  unfold decide. apply forallb_py_bool_Exists in Hex.
  rewrite Hex. reflexivity.
Qed.

Lemma decide_pass_or_fail (records : option (list PyVal))
    (p f : option string) :
  decide records p f = p \/ decide records p f = f.
Proof.
  destruct records as [[|v vs]|]; simpl; try (right; reflexivity).
  destruct (py_bool v && forallb py_bool vs); [left | right]; reflexivity.
Qed.

Lemma decide_truthiness (r1 r2 : list PyVal) (p f : option string) :
  Forall2 (fun a b => py_bool a = py_bool b) r1 r2 ->
  decide (Some r1) p f = decide (Some r2) p f.
Proof.
  intros H. pose proof (forallb_py_bool_ext _ _ H) as E.
  destruct H; [reflexivity|].
  unfold decide. rewrite E. reflexivity.
Qed.

(** ** The skip list *)

Lemma task_id_ne_spec (tid : string) (branch : option string) :
  task_id_ne tid branch = true <-> Some tid <> branch.
Proof.
  destruct branch as [b|]; simpl.
  - rewrite negb_true_iff. split.
    + intros Hne Heq. injection Heq as ->.
      rewrite String.eqb_refl in Hne. discriminate.
    + intros Hne. destruct (String.eqb_spec tid b) as [->|]; [|reflexivity].
      exfalso. apply Hne. reflexivity.
  - split; [discriminate | reflexivity].
Qed.

Lemma skip_tasks_spec (ds : list Task) (d : option string) (t : Task) :
  In t (skip_tasks ds d) <-> In t ds /\ Some (task_id t) <> d.
Proof.
  unfold skip_tasks. rewrite filter_In, task_id_ne_spec. reflexivity.
Qed.

Lemma skip_tasks_all (ds : list Task) (d : option string) :
  (forall t, In t ds -> Some (task_id t) <> d) ->
  skip_tasks ds d = ds.
Proof.
  unfold skip_tasks. induction ds as [|t ds IH]; intros Hall; simpl.
  - reflexivity.
  - assert (Ht : task_id_ne (task_id t) d = true).
    { apply task_id_ne_spec, Hall. left. reflexivity. }
    rewrite Ht. f_equal. apply IH. intros u Hu. apply Hall. right. exact Hu.
Qed.

(** ** What a run of [execute] emits *)

(** The query raised: the exception is the run's, and only the first log
    line was written. *)
Lemma execute_query_raises host self context e :
  query_result host self = Raise e ->
  execute host self context =
  ([LogInfo (ExecutingSQLCheck (sql self))], Raise e).
Proof.
  unfold query_result, execute. cbv zeta. intros ->. reflexivity.
Qed.

(** Unfolds a run whose query answered with [records] and splits on the
    row. *)
Ltac run_execute Hq records :=
  unfold execute; cbv zeta;
  unfold query_result in Hq; rewrite Hq;
  destruct records as [[|?v ?vs]|]; simpl;
  try match goal with
      | |- context [py_bool ?v && forallb py_bool ?vs] =>
          destruct (py_bool v && forallb py_bool vs); simpl
      end.

(** No context: the row is read and the reason logged, then line 119
    raises. *)
Lemma execute_without_context host self records :
  query_result host self = Ok records ->
  outcome (execute host self None) =
    Raise (TypeError "'NoneType' object is not subscriptable") /\
  followed (trace (execute host self None)) = [] /\
  skip_calls (trace (execute host self None)) = [].
Proof.
  intros Hq. run_execute Hq records; auto.
Qed.

(** A context without the ['task'] entry: line 119 raises [KeyError]. *)
Lemma execute_without_task host self records d :
  query_result host self = Ok records ->
  entry_task d = None ->
  outcome (execute host self (Some d)) = Raise (KeyError "task") /\
  followed (trace (execute host self (Some d))) = [] /\
  skip_calls (trace (execute host self (Some d))) = [].
Proof.
  intros Hq Ht. run_execute Hq records; rewrite Ht; simpl; auto.
Qed.

(** A context with the ['task'] entry: the branch is logged, whatever
    happens at line 124. *)
Lemma execute_with_task host self records d t :
  query_result host self = Ok records ->
  entry_task d = Some t ->
  followed (trace (execute host self (Some d))) =
  [decide records (pass_task self) (fail_task self)].
Proof.
  intros Hq Ht.
  run_execute Hq records; rewrite Ht; simpl;
    (destruct (downstream_list t); [reflexivity|]);
    destruct (entry_dag_run d); [|reflexivity| |reflexivity| |reflexivity|
                                 |reflexivity];
    destruct (entry_ti d); reflexivity.
Qed.

(** With the ['task'] entry, [skip] is called at most once, and only when
    there are downstream tasks. *)
Lemma execute_with_task_skips host self records d t :
  query_result host self = Ok records ->
  entry_task d = Some t ->
  List.length (skip_calls (trace (execute host self (Some d)))) <= 1 /\
  (downstream_list t = [] ->
   skip_calls (trace (execute host self (Some d))) = []).
Proof.
  intros Hq Ht.
  run_execute Hq records; rewrite Ht; simpl;
    (destruct (downstream_list t); [simpl; split; [lia | reflexivity]|]);
    (split; [|discriminate]);
    destruct (entry_dag_run d); simpl; try lia;
    destruct (entry_ti d); simpl; lia.
Qed.

Section Run.

Variable host : Host.
Variable self : BranchBQOperator.
Variable c : Context.
Variable records : option (list PyVal).
Hypothesis query_ok : query_result host self = Ok records.

Let run := execute host self (Some (to_dict c)).
Let decision := decide records (pass_task self) (fail_task self).
Let downstream_tasks := downstream_list (task c).

(** With the query answered and the scheduler's context, [execute] ends as
    the call of [skip] ends, and returns when there is nothing to skip. *)
Lemma execute_outcome :
  outcome run =
  match downstream_tasks with
  | [] => Ok tt
  | _ :: _ => skip host (dag_run c) (execution_date (ti c))
                   (skip_tasks downstream_tasks decision)
  end.
Proof using query_ok.
  unfold run, decision, downstream_tasks.
  run_execute query_ok records; destruct (downstream_list (task c)); reflexivity.
Qed.

(** [execute] logs one followed branch, the one the contract names. *)
Lemma execute_follows_decide : followed (trace run) = [decision].
Proof using query_ok.
  unfold run, decision.
  run_execute query_ok records; destruct (downstream_list (task c)); reflexivity.
Qed.

(** [execute] calls [skip] once when there are downstream tasks, with the
    filtered list, and not at all otherwise. *)
Lemma execute_skip_calls :
  skip_calls (trace run) =
  match downstream_tasks with
  | [] => []
  | _ :: _ => [(dag_run c, execution_date (ti c),
                skip_tasks downstream_tasks decision)]
  end.
Proof using query_ok.
  unfold run, decision, downstream_tasks.
  run_execute query_ok records; destruct (downstream_list (task c)); reflexivity.
Qed.

End Run.

(** ** The scenarios of the specification *)

Example scenario_count_three :
  followed (trace (execute (Sample.host (Some [PInt 3]))
                           (Sample.op (Some "pass_task") (Some "fail_task"))
                           (Some (to_dict (Sample.ctx Sample.abc)))))
  = [Some "pass_task"].
Proof. reflexivity. Qed.

Example scenario_count_zero :
  followed (trace (execute (Sample.host (Some [PInt 0]))
                           (Sample.op (Some "pass_task") (Some "fail_task"))
                           (Some (to_dict (Sample.ctx Sample.abc)))))
  = [Some "fail_task"].
Proof. reflexivity. Qed.

Example scenario_no_rows :
  followed (trace (execute (Sample.host None)
                           (Sample.op (Some "pass_task") (Some "fail_task"))
                           (Some (to_dict (Sample.ctx Sample.abc)))))
  = [Some "fail_task"].
Proof. reflexivity. Qed.

Example scenario_one_falsy :
  followed (trace (execute (Sample.host (Some [PInt 1; PStr ""]))
                           (Sample.op (Some "pass_task") (Some "fail_task"))
                           (Some (to_dict (Sample.ctx Sample.abc)))))
  = [Some "fail_task"].
Proof. reflexivity. Qed.

Example scenario_skip_a_c :
  skip_calls (trace (execute (Sample.host (Some [PInt 3]))
                             (Sample.op (Some "B") (Some "C"))
                             (Some (to_dict (Sample.ctx Sample.abc)))))
  = [(mkDagRun "scheduled__2019-01-01", 1546300800%Z,
      [Sample.leaf "A"; Sample.leaf "C"])].
Proof. reflexivity. Qed.

(** ** The branch decision *)

(** C1.  The query returned a row with at least one column and every value
    of it is truthy: the branch [execute] follows is [pass_task]. *)
Theorem execute_all_truthy_follows_pass
    (host : Host) (self : BranchBQOperator) (c : Context)
    (row : list PyVal) :
  query_result host self = Ok (Some row) ->
  row <> [] ->
  Forall (fun v => py_bool v = true) row ->
  followed (trace (execute host self (Some (to_dict c)))) = [pass_task self].
Proof.
  intros Hq Hne Hall.
  rewrite (execute_follows_decide _ _ _ _ Hq).
  rewrite decide_all_truthy by assumption. reflexivity.
Qed.

Lemma execute_all_truthy_follows_pass_witness :
  followed (trace (execute (Sample.host (Some [PInt 3; PStr "x"; PBool true]))
                           (Sample.op (Some "pass_task") (Some "fail_task"))
                           (Some (to_dict (Sample.ctx Sample.abc)))))
  = [Some "pass_task"].
Proof.
  apply (execute_all_truthy_follows_pass
           (Sample.host (Some [PInt 3; PStr "x"; PBool true]))
           (Sample.op (Some "pass_task") (Some "fail_task"))
           (Sample.ctx Sample.abc) [PInt 3; PStr "x"; PBool true]).
  - reflexivity.
  - discriminate.
  - repeat constructor.
Defined.

(** C2.  The query returned a row in which at least one value is falsy:
    the branch [execute] follows is [fail_task]. *)
Theorem execute_some_falsy_follows_fail
    (host : Host) (self : BranchBQOperator) (c : Context)
    (row : list PyVal) :
  query_result host self = Ok (Some row) ->
  Exists (fun v => py_bool v = false) row ->
  followed (trace (execute host self (Some (to_dict c)))) = [fail_task self].
Proof.
  intros Hq Hex.
  rewrite (execute_follows_decide _ _ _ _ Hq).
  rewrite decide_some_falsy by assumption. reflexivity.
Qed.

Lemma execute_some_falsy_follows_fail_witness :
  followed (trace (execute (Sample.host (Some [PInt 1; PStr ""]))
                           (Sample.op (Some "pass_task") (Some "fail_task"))
                           (Some (to_dict (Sample.ctx Sample.abc)))))
  = [Some "fail_task"].
Proof.
  apply (execute_some_falsy_follows_fail
           (Sample.host (Some [PInt 1; PStr ""]))
           (Sample.op (Some "pass_task") (Some "fail_task"))
           (Sample.ctx Sample.abc) [PInt 1; PStr ""]).
  - reflexivity.
  - right. left. reflexivity.
Defined.

(** C3, as stated, fails on the code.  The query returns no row and
    [execute] raises all the same: called without a context (the default of
    its signature) it raises [TypeError] at line 119, and with the
    scheduler's context it raises what [skip] raises at line 124, after
    [fail_task] was chosen. *)
Lemma execute_no_row_can_raise :
  query_result (Sample.host None)
               (Sample.op (Some "pass_task") (Some "fail_task")) = Ok None /\
  outcome (execute (Sample.host None)
                   (Sample.op (Some "pass_task") (Some "fail_task")) None)
  = Raise (TypeError "'NoneType' object is not subscriptable") /\
  query_result (Sample.host_failing_skip None)
               (Sample.op (Some "pass_task") (Some "fail_task")) = Ok None /\
  followed (trace (execute (Sample.host_failing_skip None)
                           (Sample.op (Some "pass_task") (Some "fail_task"))
                           (Some (to_dict (Sample.ctx Sample.abc)))))
  = [Some "fail_task"] /\
  outcome (execute (Sample.host_failing_skip None)
                   (Sample.op (Some "pass_task") (Some "fail_task"))
                   (Some (to_dict (Sample.ctx Sample.abc))))
  = Raise (HostException "OperationalError" "database is locked").
Proof. repeat split. Qed.

(** C3, amended.  The query returned no row, or a row with no column, and
    the scheduler passed its context: the branch [execute] follows is
    [fail_task], and the empty result raises nothing.  [execute] returns
    when there is no downstream task and otherwise ends as the call of
    [skip] ends, so it raises only what [skip] raises. *)
Theorem execute_no_row_follows_fail
    (host : Host) (self : BranchBQOperator) (c : Context)
    (records : option (list PyVal)) :
  query_result host self = Ok records ->
  records = None \/ records = Some [] ->
  followed (trace (execute host self (Some (to_dict c)))) = [fail_task self] /\
  outcome (execute host self (Some (to_dict c))) =
  match downstream_list (task c) with
  | [] => Ok tt
  | _ :: _ =>
      skip host (dag_run c) (execution_date (ti c))
           (skip_tasks (downstream_list (task c)) (fail_task self))
  end.
Proof.
  intros Hq Hrec.
  rewrite (execute_follows_decide _ _ _ _ Hq).
  rewrite (execute_outcome _ _ _ _ Hq).
  destruct Hrec as [-> | ->]; split; reflexivity.
Qed.

Lemma execute_no_row_follows_fail_witness :
  followed (trace (execute (Sample.host (Some []))
                           (Sample.op (Some "pass_task") (Some "fail_task"))
                           (Some (to_dict (Sample.ctx Sample.abc)))))
  = [Some "fail_task"] /\
  outcome (execute (Sample.host (Some []))
                   (Sample.op (Some "pass_task") (Some "fail_task"))
                   (Some (to_dict (Sample.ctx Sample.abc))))
  = skip (Sample.host (Some [])) (mkDagRun "scheduled__2019-01-01")
         1546300800%Z
         (skip_tasks Sample.abc (Some "fail_task")).
Proof.
  apply (execute_no_row_follows_fail (Sample.host (Some []))
           (Sample.op (Some "pass_task") (Some "fail_task"))
           (Sample.ctx Sample.abc) (Some [])).
  - reflexivity.
  - right. reflexivity.
Defined.

(** C5.  Whatever the query returned (a row, an empty row, no row), the
    branch [execute] follows is the configured [pass_task] or the
    configured [fail_task]. *)
Theorem execute_branch_is_pass_or_fail
    (host : Host) (self : BranchBQOperator) (c : Context)
    (records : option (list PyVal)) :
  query_result host self = Ok records ->
  exists d, followed (trace (execute host self (Some (to_dict c)))) = [d] /\
            (d = pass_task self \/ d = fail_task self).
Proof.
  intros Hq. eexists. split.
  - exact (execute_follows_decide _ _ _ _ Hq).
  - apply decide_pass_or_fail.
Qed.

Lemma execute_branch_is_pass_or_fail_witness :
  exists d,
    followed (trace (execute (Sample.host (Some [PInt 0; PNone]))
                             (Sample.op (Some "pass_task") (Some "fail_task"))
                             (Some (to_dict (Sample.ctx Sample.abc))))) = [d] /\
    (d = Some "pass_task" \/ d = Some "fail_task").
Proof.
  apply (execute_branch_is_pass_or_fail
           (Sample.host (Some [PInt 0; PNone]))
           (Sample.op (Some "pass_task") (Some "fail_task"))
           (Sample.ctx Sample.abc) (Some [PInt 0; PNone])).
  reflexivity.
Defined.

(** C7.  The branch followed is a function of the returned row and of the
    configured [pass_task] and [fail_task] alone: two runs that got the same
    row and have the same two identifiers follow the same branch, whatever
    the host, the query text, the connection settings and the context, and
    that branch is the value of the pure function [decide]. *)
Theorem execute_decision_deterministic
    (host1 host2 : Host) (self1 self2 : BranchBQOperator)
    (c1 c2 : Context) (records : option (list PyVal)) :
  query_result host1 self1 = Ok records ->
  query_result host2 self2 = Ok records ->
  pass_task self1 = pass_task self2 ->
  fail_task self1 = fail_task self2 ->
  followed (trace (execute host1 self1 (Some (to_dict c1)))) =
    [decide records (pass_task self1) (fail_task self1)] /\
  followed (trace (execute host1 self1 (Some (to_dict c1)))) =
    followed (trace (execute host2 self2 (Some (to_dict c2)))).
Proof.
  intros Hq1 Hq2 Hp Hf.
  rewrite (execute_follows_decide _ _ _ _ Hq1).
  rewrite (execute_follows_decide _ _ _ _ Hq2).
  rewrite Hp, Hf. split; reflexivity.
Qed.

(** C9.  Two rows of the same length whose values are pairwise equally
    truthy lead [execute] to the same branch. *)
Theorem execute_decision_depends_on_truthiness
    (host1 host2 : Host) (self : BranchBQOperator) (c1 c2 : Context)
    (row1 row2 : list PyVal) :
  query_result host1 self = Ok (Some row1) ->
  query_result host2 self = Ok (Some row2) ->
  Forall2 (fun a b => py_bool a = py_bool b) row1 row2 ->
  followed (trace (execute host1 self (Some (to_dict c1)))) =
  followed (trace (execute host2 self (Some (to_dict c2)))).
Proof.
  intros Hq1 Hq2 Hsame.
  rewrite (execute_follows_decide _ _ _ _ Hq1).
  rewrite (execute_follows_decide _ _ _ _ Hq2).
  rewrite (decide_truthiness _ _ _ _ Hsame). reflexivity.
Qed.

Lemma execute_decision_deterministic_witness :
  followed (trace (execute (Sample.host (Some [PInt 1; PStr ""]))
                           (Sample.op (Some "pass_task") (Some "fail_task"))
                           (Some (to_dict (Sample.ctx Sample.abc))))) =
    [decide (Some [PInt 1; PStr ""]) (Some "pass_task") (Some "fail_task")] /\
  followed (trace (execute (Sample.host (Some [PInt 1; PStr ""]))
                           (Sample.op (Some "pass_task") (Some "fail_task"))
                           (Some (to_dict (Sample.ctx Sample.abc))))) =
  followed (trace (execute
                     {| apply_defaults := Sample.keywords_only;
                        base_init := fun _ _ =>
                          Raise (HostException "AirflowException" "task_id");
                        get_first := fun h q =>
                          if hook_use_legacy_sql h
                          then Ok (Some [PInt 1; PStr ""])
                          else Ok None;
                        skip := fun _ _ _ =>
                          Raise (HostException "OperationalError"
                                   "database is locked") |}
                     {| base := mkBaseOperator [] [];
                        bigquery_conn_id := "warehouse";
                        sql := Some "select 1, ''";
                        pass_task := Some "pass_task";
                        fail_task := Some "fail_task";
                        delegate_to := Some "svc@example.org";
                        use_legacy_sql := true |}
                     (Some (to_dict (Sample.ctx []))))).
Proof.
  apply (execute_decision_deterministic
           (Sample.host (Some [PInt 1; PStr ""])) _
           (Sample.op (Some "pass_task") (Some "fail_task")) _
           (Sample.ctx Sample.abc) (Sample.ctx [])
           (Some [PInt 1; PStr ""])); reflexivity.
Defined.

Lemma execute_decision_depends_on_truthiness_witness :
  followed (trace (execute (Sample.host (Some [PInt 3; PStr ""]))
                           (Sample.op (Some "pass_task") (Some "fail_task"))
                           (Some (to_dict (Sample.ctx Sample.abc))))) =
  followed (trace (execute (Sample.host (Some [PStr "yes"; PInt 0]))
                           (Sample.op (Some "pass_task") (Some "fail_task"))
                           (Some (to_dict (Sample.ctx []))))).
Proof.
  apply (execute_decision_depends_on_truthiness
           (Sample.host (Some [PInt 3; PStr ""]))
           (Sample.host (Some [PStr "yes"; PInt 0]))
           (Sample.op (Some "pass_task") (Some "fail_task"))
           (Sample.ctx Sample.abc) (Sample.ctx [])
           [PInt 3; PStr ""] [PStr "yes"; PInt 0]).
  - reflexivity.
  - reflexivity.
  - repeat constructor.
Defined.

(** ** Skipping *)

(** C4.  For the downstream tasks of the context and the branch [d] that
    [execute] follows, the skip list holds exactly the downstream tasks whose
    [task_id] differs from [d]: no task of the followed branch, and every
    other downstream task.  It is the list handed to [skip] when there are
    downstream tasks. *)
Theorem skip_set_exact
    (host : Host) (self : BranchBQOperator) (c : Context)
    (records : option (list PyVal)) (d : option string) :
  query_result host self = Ok records ->
  followed (trace (execute host self (Some (to_dict c)))) = [d] ->
  (forall t, In t (skip_tasks (downstream_list (task c)) d) <->
             In t (downstream_list (task c)) /\ Some (task_id t) <> d) /\
  (downstream_list (task c) <> [] ->
   skip_calls (trace (execute host self (Some (to_dict c)))) =
   [(dag_run c, execution_date (ti c),
     skip_tasks (downstream_list (task c)) d)]).
Proof.
  intros Hq Hd. split.
  - intros t. apply skip_tasks_spec.
  - intros Hne.
    rewrite (execute_follows_decide _ _ _ _ Hq) in Hd.
    injection Hd as <-.
    rewrite (execute_skip_calls _ _ _ _ Hq).
    destruct (downstream_list (task c)); [contradiction | reflexivity].
Qed.

Lemma skip_set_exact_witness :
  (forall t, In t (skip_tasks Sample.abc (Some "B")) <->
             In t Sample.abc /\ Some (task_id t) <> Some "B") /\
  (Sample.abc <> [] ->
   skip_calls (trace (execute (Sample.host (Some [PInt 3]))
                              (Sample.op (Some "B") (Some "C"))
                              (Some (to_dict (Sample.ctx Sample.abc))))) =
   [(mkDagRun "scheduled__2019-01-01", 1546300800%Z,
     skip_tasks Sample.abc (Some "B"))]).
Proof.
  apply (skip_set_exact (Sample.host (Some [PInt 3]))
           (Sample.op (Some "B") (Some "C")) (Sample.ctx Sample.abc)
           (Some [PInt 3]) (Some "B")); reflexivity.
Defined.

(** C6.  With no downstream task, [execute] never calls [skip], whatever
    the query does. *)
Theorem execute_no_downstream_no_skip
    (host : Host) (self : BranchBQOperator) (c : Context) :
  downstream_list (task c) = [] ->
  skip_calls (trace (execute host self (Some (to_dict c)))) = [].
Proof.
  intros Hds. destruct (query_result host self) as [records | e] eqn:Hq.
  - rewrite (execute_skip_calls _ _ _ _ Hq), Hds. reflexivity.
  - rewrite (execute_query_raises _ _ _ _ Hq). reflexivity.
Qed.

Lemma execute_no_downstream_no_skip_witness :
  skip_calls (trace (execute (Sample.host (Some [PInt 3]))
                             (Sample.op (Some "B") (Some "C"))
                             (Some (to_dict (Sample.ctx []))))) = [].
Proof.
  apply (execute_no_downstream_no_skip (Sample.host (Some [PInt 3]))
           (Sample.op (Some "B") (Some "C")) (Sample.ctx [])).
  reflexivity.
Defined.

(** The same read from the call, for any context: a call of [skip] in the
    trace means there was a context, it had its ['task'] entry and that task
    had downstream tasks. *)
Lemma execute_skip_needs_downstream
    (host : Host) (self : BranchBQOperator)
    (context : option ContextDict) :
  skip_calls (trace (execute host self context)) <> [] ->
  exists d t, context = Some d /\ entry_task d = Some t /\
              downstream_list t <> [].
Proof.
  intros Hcall. destruct (query_result host self) as [records | e] eqn:Hq.
  - destruct context as [d|].
    + destruct (entry_task d) as [t|] eqn:Ht.
      * exists d, t. split; [reflexivity|]. split; [exact Ht|].
        intros Hds. apply Hcall.
        apply (execute_with_task_skips _ _ _ _ _ Hq Ht). exact Hds.
      * exfalso. apply Hcall.
        apply (execute_without_task _ _ _ _ Hq Ht).
    + exfalso. apply Hcall.
      apply (execute_without_context _ _ _ Hq).
  - exfalso. apply Hcall.
    rewrite (execute_query_raises _ _ _ _ Hq). reflexivity.
Qed.

(** C10.  There are downstream tasks and none of them has the identifier
    of the branch [execute] follows: [skip] is called once, with the whole
    downstream list. *)
Theorem execute_unknown_branch_skips_all
    (host : Host) (self : BranchBQOperator) (c : Context)
    (records : option (list PyVal)) (d : option string) :
  query_result host self = Ok records ->
  followed (trace (execute host self (Some (to_dict c)))) = [d] ->
  downstream_list (task c) <> [] ->
  (forall t, In t (downstream_list (task c)) -> Some (task_id t) <> d) ->
  skip_calls (trace (execute host self (Some (to_dict c)))) =
  [(dag_run c, execution_date (ti c), downstream_list (task c))].
Proof.
  intros Hq Hd Hne Hnone.
  rewrite (execute_follows_decide _ _ _ _ Hq) in Hd. injection Hd as <-.
  rewrite (execute_skip_calls _ _ _ _ Hq).
  rewrite (skip_tasks_all _ _ Hnone).
  destruct (downstream_list (task c)); [contradiction | reflexivity].
Qed.

Lemma execute_unknown_branch_skips_all_witness :
  skip_calls (trace (execute (Sample.host (Some [PInt 3]))
                             (Sample.op (Some "pas_task") (Some "C"))
                             (Some (to_dict (Sample.ctx Sample.abc))))) =
  [(mkDagRun "scheduled__2019-01-01", 1546300800%Z, Sample.abc)].
Proof.
  apply (execute_unknown_branch_skips_all (Sample.host (Some [PInt 3]))
           (Sample.op (Some "pas_task") (Some "C")) (Sample.ctx Sample.abc)
           (Some [PInt 3]) (Some "pas_task")).
  - reflexivity.
  - reflexivity.
  - discriminate.
  - intros t [<- | [<- | [<- | []]]]; discriminate.
Defined.

(** ** Construction *)

(** C8, as the specification asks for it, fails on the code: the call
    [BranchBQOperator(task_id='check', sql='select 1')] names neither
    [pass_task] nor [fail_task], and the constructor returns the
    operator. *)
Lemma init_absent_branch_no_error :
  ~ (forall (host : Host) (call : InitCall),
        with_default None (arg_pass_task call) = None \/
        with_default None (arg_fail_task call) = None ->
        exists e, __init__ host call = Raise e).
Proof.
  intros H.
  destruct (H (Sample.host None) (Sample.call "select 1" None None)
              (or_introl eq_refl))
    as [e He].
  discriminate He.
Qed.

(** What the wrapper does shows in the result: a positional argument is
    refused before the body runs, and a [pass_task] taken from
    [default_args] is the one stored. *)
Example init_positional_refused :
  __init__ (Sample.host None)
           {| positional := 1;
              arg_sql := Some (Some "select 1");
              arg_pass_task := None;
              arg_fail_task := None;
              arg_use_legacy_sql := None;
              arg_bigquery_conn_id := None;
              arg_delegate_to := None;
              arg_args := [];
              arg_kwargs := [("task_id", PStr "check")] |}
  = Raise (HostException "AirflowException"
             "Use keyword arguments when initializing operators").
Proof. reflexivity. Qed.

Example init_pass_task_from_default_args :
  match __init__ {| apply_defaults := Sample.fills_pass_task "pass_task";
                    base_init := fun a k => Ok (mkBaseOperator a k);
                    get_first := fun _ _ => Ok None;
                    skip := fun _ _ _ => Ok tt |}
                 (Sample.call "select 1" None None) with
  | Ok op => pass_task op = Some "pass_task" /\ fail_task op = None
  | Raise _ => False
  end.
Proof. split; reflexivity. Qed.

(** C8, amended.  A call that leaves [pass_task] or [fail_task] absent
    raises no configuration error on that account: the constructor checks
    neither identifier, and it returns the operator whenever the wrapper of
    [@apply_defaults] hands the call on and the base constructor
    returns. *)
Theorem init_absent_branch_constructs
    (host : Host) (call call' : InitCall) (b : BaseOperator) :
  with_default None (arg_pass_task call) = None \/
  with_default None (arg_fail_task call) = None ->
  apply_defaults host call = Ok call' ->
  base_init host (arg_args call') (arg_kwargs call') = Ok b ->
  exists op, __init__ host call = Ok op.
Proof.
  intros _ Hwrap Hbase. unfold __init__, init_body.
  rewrite Hwrap, Hbase. eexists. reflexivity.
Qed.

Lemma init_absent_branch_constructs_witness :
  exists op,
    __init__ (Sample.host None)
             (Sample.call "select 1" None (Some (Some "fail_task")))
    = Ok op.
Proof.
  apply (init_absent_branch_constructs (Sample.host None)
           (Sample.call "select 1" None (Some (Some "fail_task")))
           {| positional := 0;
              arg_sql := Some (Some "select 1");
              arg_pass_task := None;
              arg_fail_task := Some (Some "fail_task");
              arg_use_legacy_sql := None;
              arg_bigquery_conn_id := None;
              arg_delegate_to := None;
              arg_args := [];
              arg_kwargs := [("task_id", PStr "check"); ("params", PDict [])]
           |}
           (mkBaseOperator [] [("task_id", PStr "check");
                               ("params", PDict [])])).
  - left. reflexivity.
  - reflexivity.
  - reflexivity.
Defined.

(** ** Further properties of [execute] *)

(** The whole trace of a run that got an answer and a context, in the order
    of the source: the two opening log lines, the line that says why the
    check failed (if it did), the branch, the downstream tasks, and the call
    of [skip]. *)
Lemma execute_trace
    (host : Host) (self : BranchBQOperator) (c : Context)
    (records : option (list PyVal)) :
  query_result host self = Ok records ->
  trace (execute host self (Some (to_dict c))) =
  ([LogInfo (ExecutingSQLCheck (sql self)); LogInfo (RecordLine records)]
  ++ (if negb (records_bool records) then [LogInfo QueryReturnedNone]
      else if negb (forallb py_bool (row_of records))
           then [LogInfo (TestFailed (sql self) records)]
           else [])
  ++ [LogInfo (FollowingBranch
                 (decide records (pass_task self) (fail_task self)));
      LogInfo (DownstreamTaskIds (downstream_list (task c)))]
  ++ match downstream_list (task c) with
     | [] => []
     | _ :: _ =>
         [Skip (dag_run c) (execution_date (ti c))
               (skip_tasks (downstream_list (task c))
                  (decide records (pass_task self) (fail_task self)))]
     end)%list.
Proof.
  unfold query_result, execute. cbv zeta. intros ->.
  destruct records as [[|v vs]|]; simpl;
    try destruct (py_bool v && forallb py_bool vs); simpl;
    destruct (downstream_list (task c)); reflexivity.
Qed.

Lemma forallb_py_bool_Permutation (row1 row2 : list PyVal) :
  Permutation row1 row2 -> forallb py_bool row1 = forallb py_bool row2.
Proof.
  induction 1 as [| v r1 r2 _ IH | v w r | r1 r2 r3 _ IH1 _ IH2]; simpl.
  - reflexivity.
  - rewrite IH. reflexivity.
  - rewrite !andb_assoc, (andb_comm (py_bool w)). reflexivity.
  - rewrite IH1. exact IH2.
Qed.

Lemma decide_Permutation (row1 row2 : list PyVal) (p f : option string) :
  Permutation row1 row2 -> decide (Some row1) p f = decide (Some row2) p f.
Proof.
  intros HP. pose proof (forallb_py_bool_Permutation _ _ HP) as E.
  destruct row1 as [|v1 r1].
  - apply Permutation_nil in HP. subst. reflexivity.
  - destruct row2 as [|v2 r2].
    + apply Permutation_sym, Permutation_nil in HP. discriminate.
    + unfold decide. rewrite E. reflexivity.
Qed.

(** In a list of tasks with pairwise different identifiers, taking out the
    tasks that carry the identifier of [t] takes out [t] and nothing else. *)
Lemma skip_tasks_unique (l1 l2 : list Task) (t : Task) :
  NoDup (map task_id (l1 ++ t :: l2)) ->
  skip_tasks (l1 ++ t :: l2) (Some (task_id t)) = (l1 ++ l2)%list.
Proof.
  intros Hnd. rewrite map_app in Hnd. simpl in Hnd.
  apply NoDup_remove_2 in Hnd.
  assert (Hother : forall u, In u (l1 ++ l2) ->
                             Some (task_id u) <> Some (task_id t)).
  { intros u Hu Heq. injection Heq as Heq. apply Hnd.
    rewrite <- map_app, <- Heq. apply in_map. exact Hu. }
  assert (Happ : skip_tasks (l1 ++ t :: l2) (Some (task_id t)) =
                 (skip_tasks l1 (Some (task_id t)) ++
                  skip_tasks l2 (Some (task_id t)))%list).
  { unfold skip_tasks. rewrite filter_app. simpl.
    rewrite String.eqb_refl. reflexivity. }
  rewrite Happ.
  rewrite (skip_tasks_all l1), (skip_tasks_all l2); [reflexivity | |];
    intros u Hu; apply Hother, in_or_app; [right | left]; exact Hu.
Qed.

(** X1.  How a call of [execute] ends, for every host and every context.
    Nothing is caught: the exception of the query, the [TypeError] or
    [KeyError] of a context that is [None] or lacks an entry that is read,
    and the exception of [skip] are raised as they come.  The ['dag_run']
    and ['ti'] entries are read only when there are downstream tasks. *)
Theorem execute_outcome_cases
    (host : Host) (self : BranchBQOperator)
    (context : option ContextDict) :
  outcome (execute host self context) =
  match query_result host self with
  | Raise e => Raise e
  | Ok records =>
      match context with
      | None => Raise (TypeError "'NoneType' object is not subscriptable")
      | Some d =>
          match entry_task d with
          | None => Raise (KeyError "task")
          | Some t =>
              match downstream_list t with
              | [] => Ok tt
              | _ :: _ =>
                  match entry_dag_run d with
                  | None => Raise (KeyError "dag_run")
                  | Some run =>
                      match entry_ti d with
                      | None => Raise (KeyError "ti")
                      | Some i =>
                          skip host run (execution_date i)
                            (skip_tasks (downstream_list t)
                               (decide records (pass_task self)
                                       (fail_task self)))
                      end
                  end
              end
          end
      end
  end.
Proof.
  destruct (query_result host self) as [records | e] eqn:Hq.
  - run_execute Hq records;
      (destruct context as [d|]; [|reflexivity]); simpl;
      (destruct (entry_task d) as [t|]; [|reflexivity]); simpl;
      (destruct (downstream_list t); [reflexivity|]);
      (destruct (entry_dag_run d); [|reflexivity]); simpl;
      (destruct (entry_ti d); reflexivity).
  - rewrite (execute_query_raises _ _ _ _ Hq). reflexivity.
Qed.

(** X2.  A call of [execute] that raises has skipped nothing, unless the
    exception is the one its call of [skip] raised: the run never makes
    the call of [skip] and then fails for another reason. *)
Theorem execute_failed_run_skip
    (host : Host) (self : BranchBQOperator)
    (context : option ContextDict) (e : exn) :
  outcome (execute host self context) = Raise e ->
  skip_calls (trace (execute host self context)) = [] \/
  exists run date tasks,
    skip_calls (trace (execute host self context)) = [(run, date, tasks)] /\
    skip host run date tasks = Raise e.
Proof.
  destruct (query_result host self) as [records | e'] eqn:Hq.
  - run_execute Hq records;
      (destruct context as [d|]; [|left; reflexivity]); simpl;
      (destruct (entry_task d) as [t|]; [|left; reflexivity]); simpl;
      (destruct (downstream_list t); [left; reflexivity|]);
      (destruct (entry_dag_run d); [|left; reflexivity]); simpl;
      (destruct (entry_ti d); [|left; reflexivity]); simpl;
      intros Hraise; right; do 3 eexists; (split; [reflexivity|]);
      exact Hraise.
  - intros _. left.
    rewrite (execute_query_raises _ _ _ _ Hq). reflexivity.
Qed.

Lemma execute_failed_run_skip_witness :
  skip_calls (trace (execute (Sample.host_failing_skip (Some [PInt 3]))
                             (Sample.op (Some "B") (Some "C"))
                             (Some (to_dict (Sample.ctx Sample.abc))))) = []
  \/
  exists run date tasks,
    skip_calls (trace (execute (Sample.host_failing_skip (Some [PInt 3]))
                               (Sample.op (Some "B") (Some "C"))
                               (Some (to_dict (Sample.ctx Sample.abc)))))
    = [(run, date, tasks)] /\
    skip (Sample.host_failing_skip (Some [PInt 3])) run date tasks
    = Raise (HostException "OperationalError" "database is locked").
Proof.
  apply (execute_failed_run_skip (Sample.host_failing_skip (Some [PInt 3]))
           (Sample.op (Some "B") (Some "C"))
           (Some (to_dict (Sample.ctx Sample.abc)))
           (HostException "OperationalError" "database is locked")).
  reflexivity.
Defined.

(** X3.  Whatever the host, the operator and the context, one call of
    [execute] calls [skip] at most once, and only after it has logged the
    branch it follows, which it does at most once. *)
Theorem execute_at_most_one_skip
    (host : Host) (self : BranchBQOperator)
    (context : option ContextDict) :
  List.length (skip_calls (trace (execute host self context))) <=
  List.length (followed (trace (execute host self context))) <= 1.
Proof.
  destruct (query_result host self) as [records | e] eqn:Hq.
  - destruct context as [d|].
    + destruct (entry_task d) as [t|] eqn:Ht.
      * rewrite (execute_with_task _ _ _ _ _ Hq Ht).
        pose proof (execute_with_task_skips _ _ _ _ _ Hq Ht) as [Hle _].
        simpl. lia.
      * destruct (execute_without_task _ _ _ _ Hq Ht) as (_ & -> & ->).
        simpl. lia.
    + destruct (execute_without_context _ _ _ Hq) as (_ & -> & ->).
      simpl. lia.
  - rewrite (execute_query_raises _ _ _ _ Hq). simpl. lia.
Qed.

(** Either of the two lines that say why the check failed is in the trace
    exactly when the branch of [execute] that writes it is taken: none of
    the four lines every run writes, and no call of [skip], is one. *)
Lemma failure_line_in_trace
    (host : Host) (self : BranchBQOperator) (c : Context)
    (records : option (list PyVal)) (r : LogRecord) :
  query_result host self = Ok records ->
  r = QueryReturnedNone \/ r = TestFailed (sql self) records ->
  In (LogInfo r) (trace (execute host self (Some (to_dict c)))) <->
  In (LogInfo r)
     (if negb (records_bool records) then [LogInfo QueryReturnedNone]
      else if negb (forallb py_bool (row_of records))
           then [LogInfo (TestFailed (sql self) records)]
           else []).
Proof.
  intros Hq Hr. rewrite (execute_trace _ _ _ _ Hq), !in_app_iff.
  split.
  - intros [Hhead | [Hwhy | [Hmid | Hskip]]].
    + destruct Hr as [-> | ->], Hhead as [H | [H | []]]; discriminate H.
    + exact Hwhy.
    + destruct Hr as [-> | ->], Hmid as [H | [H | []]]; discriminate H.
    + destruct (downstream_list (task c)); [destruct Hskip|].
      destruct Hskip as [H | []]. discriminate H.
  - intros Hwhy. right. left. exact Hwhy.
Qed.

(** X4.  The two log lines that say why the check failed.  ['The query
    returned None'] is written exactly when the query returned no row or a
    row with no column (so also for a row that is not [None]), and the
    ['Test failed'] line, with the query and the row, exactly when the
    query returned a row that holds a falsy value. *)
Theorem execute_failure_lines
    (host : Host) (self : BranchBQOperator) (c : Context)
    (records : option (list PyVal)) :
  query_result host self = Ok records ->
  (In (LogInfo QueryReturnedNone) (trace (execute host self (Some (to_dict c)))) <->
   records = None \/ records = Some []) /\
  (In (LogInfo (TestFailed (sql self) records))
      (trace (execute host self (Some (to_dict c)))) <->
   exists row, records = Some row /\
               Exists (fun v => py_bool v = false) row).
Proof.
  intros Hq. split.
  - rewrite (failure_line_in_trace _ _ _ _ _ Hq) by (left; reflexivity).
    destruct records as [[|v vs]|]; cbn [records_bool negb].
    + split; intros _; [right | left]; reflexivity.
    + split.
      * destruct (negb (forallb py_bool (row_of (Some (v :: vs)))));
          [intros [H | []]; discriminate H | intros []].
      * intros [H | H]; discriminate H.
    + split; intros _; left; reflexivity.
  - rewrite (failure_line_in_trace _ _ _ _ _ Hq) by (right; reflexivity).
    destruct records as [[|v vs]|]; cbn [records_bool negb row_of].
    + split.
      * intros [H | []]. discriminate H.
      * intros (row & Hrow & Hex). injection Hrow as <-. inversion Hex.
    + destruct (forallb py_bool (v :: vs)) eqn:E; cbn [negb]; split.
      * intros [].
      * intros (row & Hrow & Hex). injection Hrow as <-.
        apply forallb_py_bool_Exists in Hex. rewrite E in Hex.
        discriminate Hex.
      * intros _. exists (v :: vs). split; [reflexivity|].
        apply forallb_py_bool_Exists. exact E.
      * intros _. left. reflexivity.
    + split.
      * intros [H | []]. discriminate H.
      * intros (row & Hrow & _). discriminate Hrow.
Qed.

Lemma execute_failure_lines_witness :
  (In (LogInfo QueryReturnedNone)
      (trace (execute (Sample.host (Some []))
                      (Sample.op (Some "B") (Some "C"))
                      (Some (to_dict (Sample.ctx Sample.abc))))) <->
   Some (@nil PyVal) = None \/ Some (@nil PyVal) = Some []) /\
  (In (LogInfo (TestFailed (sql (Sample.op (Some "B") (Some "C")))
                           (Some [])))
      (trace (execute (Sample.host (Some []))
                      (Sample.op (Some "B") (Some "C"))
                      (Some (to_dict (Sample.ctx Sample.abc))))) <->
   exists row, Some (@nil PyVal) = Some row /\
               Exists (fun v => py_bool v = false) row).
Proof.
  apply (execute_failure_lines (Sample.host (Some []))
           (Sample.op (Some "B") (Some "C")) (Sample.ctx Sample.abc)
           (Some [])).
  reflexivity.
Defined.

(** X5.  The order of the columns does not matter: two runs whose rows are
    permutations of each other follow the same branch. *)
Theorem execute_decision_permutation
    (host1 host2 : Host) (self : BranchBQOperator) (c1 c2 : Context)
    (row1 row2 : list PyVal) :
  query_result host1 self = Ok (Some row1) ->
  query_result host2 self = Ok (Some row2) ->
  Permutation row1 row2 ->
  followed (trace (execute host1 self (Some (to_dict c1)))) =
  followed (trace (execute host2 self (Some (to_dict c2)))).
Proof.
  intros Hq1 Hq2 HP.
  rewrite (execute_follows_decide _ _ _ _ Hq1).
  rewrite (execute_follows_decide _ _ _ _ Hq2).
  rewrite (decide_Permutation _ _ _ _ HP). reflexivity.
Qed.

Lemma execute_decision_permutation_witness :
  followed (trace (execute (Sample.host (Some [PInt 1; PStr ""; PInt 7]))
                           (Sample.op (Some "pass_task") (Some "fail_task"))
                           (Some (to_dict (Sample.ctx Sample.abc))))) =
  followed (trace (execute (Sample.host (Some [PStr ""; PInt 1; PInt 7]))
                           (Sample.op (Some "pass_task") (Some "fail_task"))
                           (Some (to_dict (Sample.ctx []))))).
Proof.
  apply (execute_decision_permutation
           (Sample.host (Some [PInt 1; PStr ""; PInt 7]))
           (Sample.host (Some [PStr ""; PInt 1; PInt 7]))
           (Sample.op (Some "pass_task") (Some "fail_task"))
           (Sample.ctx Sample.abc) (Sample.ctx [])
           [PInt 1; PStr ""; PInt 7] [PStr ""; PInt 1; PInt 7]).
  - reflexivity.
  - reflexivity.
  - apply perm_swap.
Defined.

(** X6.  The use the docstring shows, a query that returns one count:
    [pass_task] is followed when the count is not zero (a negative number
    included), [fail_task] when it is zero. *)
Theorem execute_count_query
    (host : Host) (self : BranchBQOperator) (c : Context) (n : Z) :
  query_result host self = Ok (Some [PInt n]) ->
  followed (trace (execute host self (Some (to_dict c)))) =
  [if Z.eqb n 0 then fail_task self else pass_task self].
Proof.
  intros Hq. rewrite (execute_follows_decide _ _ _ _ Hq).
  unfold decide. simpl. destruct (Z.eqb n 0); reflexivity.
Qed.

Lemma execute_count_query_witness :
  followed (trace (execute (Sample.host (Some [PInt (-2)]))
                           (Sample.op (Some "pass_task") (Some "fail_task"))
                           (Some (to_dict (Sample.ctx Sample.abc))))) =
  [if Z.eqb (-2) 0 then Some "fail_task" else Some "pass_task"].
Proof.
  apply (execute_count_query (Sample.host (Some [PInt (-2)]))
           (Sample.op (Some "pass_task") (Some "fail_task"))
           (Sample.ctx Sample.abc) (-2)%Z).
  reflexivity.
Defined.

(** X7.  The two branches exclude each other.  When [pass_task] and
    [fail_task] are different identifiers and each names a downstream task,
    [skip] is called once and its list holds exactly one of the two tasks:
    the fail task when [pass_task] is followed, the pass task when
    [fail_task] is followed. *)
Theorem execute_branches_exclusive
    (host : Host) (self : BranchBQOperator) (c : Context)
    (records : option (list PyVal)) (p f : string) (tp tf : Task) :
  query_result host self = Ok records ->
  pass_task self = Some p ->
  fail_task self = Some f ->
  p <> f ->
  In tp (downstream_list (task c)) -> task_id tp = p ->
  In tf (downstream_list (task c)) -> task_id tf = f ->
  exists sk,
    skip_calls (trace (execute host self (Some (to_dict c)))) =
      [(dag_run c, execution_date (ti c), sk)] /\
    ((followed (trace (execute host self (Some (to_dict c)))) = [Some p] /\
      ~ In tp sk /\ In tf sk) \/
     (followed (trace (execute host self (Some (to_dict c)))) = [Some f] /\
      In tp sk /\ ~ In tf sk)).
Proof.
  intros Hq Hp Hf Hpf Htp Hidp Htf Hidf.
  rewrite (execute_follows_decide _ _ _ _ Hq).
  rewrite (execute_skip_calls _ _ _ _ Hq).
  destruct (downstream_list (task c)) as [|t ts] eqn:Hds; [destruct Htp|].
  rewrite <- Hds in *. clear Hds.
  eexists. split; [reflexivity|].
  destruct (decide_pass_or_fail records (pass_task self) (fail_task self))
    as [-> | ->]; [left; rewrite Hp | right; rewrite Hf];
    (split; [reflexivity|]); rewrite !skip_tasks_spec; subst p f.
  - split.
    + intros [_ Hne]. apply Hne. reflexivity.
    + split; [exact Htf|]. intros Heq. apply Hpf.
      injection Heq as Heq. symmetry. exact Heq.
  - split.
    + split; [exact Htp|]. intros Heq. apply Hpf.
      injection Heq as Heq. exact Heq.
    + intros [_ Hne]. apply Hne. reflexivity.
Qed.

Lemma execute_branches_exclusive_witness :
  exists sk,
    skip_calls (trace (execute (Sample.host (Some [PInt 0]))
                               (Sample.op (Some "B") (Some "C"))
                               (Some (to_dict (Sample.ctx Sample.abc))))) =
      [(mkDagRun "scheduled__2019-01-01", 1546300800%Z, sk)] /\
    ((followed (trace (execute (Sample.host (Some [PInt 0]))
                               (Sample.op (Some "B") (Some "C"))
                               (Some (to_dict (Sample.ctx Sample.abc))))) = [Some "B"] /\
      ~ In (Sample.leaf "B") sk /\ In (Sample.leaf "C") sk) \/
     (followed (trace (execute (Sample.host (Some [PInt 0]))
                               (Sample.op (Some "B") (Some "C"))
                               (Some (to_dict (Sample.ctx Sample.abc))))) = [Some "C"] /\
      In (Sample.leaf "B") sk /\ ~ In (Sample.leaf "C") sk)).
Proof.
  apply (execute_branches_exclusive (Sample.host (Some [PInt 0]))
           (Sample.op (Some "B") (Some "C")) (Sample.ctx Sample.abc)
           (Some [PInt 0]) "B" "C" (Sample.leaf "B") (Sample.leaf "C")).
  - reflexivity.
  - reflexivity.
  - reflexivity.
  - discriminate.
  - right. left. reflexivity.
  - reflexivity.
  - right. right. left. reflexivity.
  - reflexivity.
Defined.

(** X8.  Downstream tasks with pairwise different identifiers, one of them
    the followed branch: the list passed to [skip] is the downstream list
    with that one task taken out, the others in their order. *)
Theorem execute_unique_ids_skip_all_but_branch
    (host : Host) (self : BranchBQOperator) (c : Context)
    (records : option (list PyVal)) (t : Task) :
  query_result host self = Ok records ->
  followed (trace (execute host self (Some (to_dict c)))) = [Some (task_id t)] ->
  In t (downstream_list (task c)) ->
  NoDup (map task_id (downstream_list (task c))) ->
  exists l1 l2,
    downstream_list (task c) = (l1 ++ t :: l2)%list /\
    skip_calls (trace (execute host self (Some (to_dict c)))) =
    [(dag_run c, execution_date (ti c), (l1 ++ l2)%list)].
Proof.
  intros Hq Hd Hin Hnd.
  rewrite (execute_follows_decide _ _ _ _ Hq) in Hd. injection Hd as Hd.
  rewrite (execute_skip_calls _ _ _ _ Hq), Hd.
  destruct (in_split _ _ Hin) as (l1 & l2 & Hds).
  exists l1, l2. split; [exact Hds|].
  rewrite Hds in *. rewrite (skip_tasks_unique _ _ _ Hnd).
  destruct l1; reflexivity.
Qed.

Lemma execute_unique_ids_skip_all_but_branch_witness :
  exists l1 l2,
    Sample.abc = (l1 ++ Sample.leaf "B" :: l2)%list /\
    skip_calls (trace (execute (Sample.host (Some [PInt 3]))
                               (Sample.op (Some "B") (Some "C"))
                               (Some (to_dict (Sample.ctx Sample.abc))))) =
    [(mkDagRun "scheduled__2019-01-01", 1546300800%Z, (l1 ++ l2)%list)].
Proof.
  apply (execute_unique_ids_skip_all_but_branch
           (Sample.host (Some [PInt 3])) (Sample.op (Some "B") (Some "C"))
           (Sample.ctx Sample.abc) (Some [PInt 3]) (Sample.leaf "B")).
  - reflexivity.
  - reflexivity.
  - right. left. reflexivity.
  - repeat constructor; simpl; intuition discriminate.
Defined.

(** ** Construction, then execution *)

(** X10.  What the body of the constructor receives is what a run uses.
    For an operator that [__init__] returned, [execute] asks the hook built
    from the connection id, the dialect flag and the delegate that the
    wrapper of [@apply_defaults] handed over (the defaults of the signature
    for those left out) for the first row of the [sql] handed over, logs
    that query and that row, and follows the [pass_task] or the [fail_task]
    handed over, according to the row. *)
Theorem init_then_execute
    (host : Host) (call call' : InitCall)
    (op : BranchBQOperator) (c : Context)
    (records : option (list PyVal)) :
  apply_defaults host call = Ok call' ->
  __init__ host call = Ok op ->
  get_first host
    (mkBigQueryHook
       (with_default default_bigquery_conn_id (arg_bigquery_conn_id call'))
       (with_default default_use_legacy_sql (arg_use_legacy_sql call'))
       (with_default None (arg_delegate_to call')))
    (with_default None (arg_sql call')) = Ok records ->
  followed (trace (execute host op (Some (to_dict c)))) =
    [decide records (with_default None (arg_pass_task call'))
                    (with_default None (arg_fail_task call'))] /\
  In (LogInfo (ExecutingSQLCheck (with_default None (arg_sql call'))))
     (trace (execute host op (Some (to_dict c)))) /\
  In (LogInfo (RecordLine records))
     (trace (execute host op (Some (to_dict c)))).
Proof.
  unfold __init__, init_body. intros Hwrap Hinit Hget.
  rewrite Hwrap in Hinit.
  destruct (base_init host (arg_args call') (arg_kwargs call')) as [b | e];
    [|discriminate Hinit].
  injection Hinit as <-.
  match goal with
  | |- context [execute host ?o _] =>
      assert (Hq : query_result host o = Ok records) by exact Hget
  end.
  split; [exact (execute_follows_decide _ _ _ _ Hq)|].
  rewrite (execute_trace _ _ _ _ Hq). simpl. auto.
Qed.

Lemma init_then_execute_witness :
  followed (trace (execute (Sample.host (Some [PInt 3]))
                     {| base := mkBaseOperator []
                                  [("task_id", PStr "check");
                                   ("params", PDict [])];
                        bigquery_conn_id := default_bigquery_conn_id;
                        sql := Some "select 1";
                        pass_task := Some "B";
                        fail_task := None;
                        delegate_to := None;
                        use_legacy_sql := default_use_legacy_sql |}
                     (Some (to_dict (Sample.ctx Sample.abc))))) =
    [decide (Some [PInt 3]) (Some "B") None] /\
  In (LogInfo (ExecutingSQLCheck (Some "select 1")))
     (trace (execute (Sample.host (Some [PInt 3]))
                     {| base := mkBaseOperator []
                                  [("task_id", PStr "check");
                                   ("params", PDict [])];
                        bigquery_conn_id := default_bigquery_conn_id;
                        sql := Some "select 1";
                        pass_task := Some "B";
                        fail_task := None;
                        delegate_to := None;
                        use_legacy_sql := default_use_legacy_sql |}
                     (Some (to_dict (Sample.ctx Sample.abc))))) /\
  In (LogInfo (RecordLine (Some [PInt 3])))
     (trace (execute (Sample.host (Some [PInt 3]))
                     {| base := mkBaseOperator []
                                  [("task_id", PStr "check");
                                   ("params", PDict [])];
                        bigquery_conn_id := default_bigquery_conn_id;
                        sql := Some "select 1";
                        pass_task := Some "B";
                        fail_task := None;
                        delegate_to := None;
                        use_legacy_sql := default_use_legacy_sql |}
                     (Some (to_dict (Sample.ctx Sample.abc))))).
Proof.
  apply (init_then_execute (Sample.host (Some [PInt 3]))
           (Sample.call "select 1" (Some (Some "B")) None)
           {| positional := 0;
              arg_sql := Some (Some "select 1");
              arg_pass_task := Some (Some "B");
              arg_fail_task := None;
              arg_use_legacy_sql := None;
              arg_bigquery_conn_id := None;
              arg_delegate_to := None;
              arg_args := [];
              arg_kwargs := [("task_id", PStr "check"); ("params", PDict [])]
           |}
           _ (Sample.ctx Sample.abc) (Some [PInt 3])); reflexivity.
Defined.
